(** * urlshortener-GO: the code generator and the two-tier mapping store

    A shallow embedding of [src/main.go].  The program keeps a process-wide
    map [shortURLs] (the fast tier) next to a MongoDB collection (the durable
    tier) and serves three handlers under one mutex.  Because every handler
    takes [mu] on entry and releases it on exit, handlers never interleave:
    each one is a function from the server state to a response and a new
    state.

    What is outside the repository is taken through interfaces:
    - [math/rand] is a [RandSource]: a state and [Intn], with the documented
      range of [Intn];
    - the MongoDB driver is a [Collection]: a state with [InsertOne] and
      [FindOne], either of which may fail with an [error];
    - [net/http] is the [Response] type, which records the call a handler
      makes on its writer ([http.Redirect], [http.Error], [http.NotFound]). *)

From Stdlib Require Import ZArith Ascii String.
From stdpp Require Import gmap strings list fin_maps.

Local Open Scope string_scope.
Local Open Scope Z_scope.

(** ** Go strings and byte slices *)

(** A Go [string] is a sequence of bytes, here [string]; a [[]byte] is a
    [list ascii].  [string(b)] is [string_of_list_ascii b]. *)

(** [s[i]]: the byte at index [i]; out of range is a run-time panic, here
    [None]. *)
Definition index (s : string) (i : Z) : option ascii :=
  if i <? 0 then None else String.get (Z.to_nat i) s.

(** [len(s)] *)
Definition len (s : string) : Z := Z.of_nat (String.length s).

(** [make([]byte, n)]: [n] zero bytes. *)
Definition make (n : nat) : list ascii := replicate n Ascii.zero.

(** ** Errors *)

(** Go's [error] values, as far as the program tells them apart (it does
    not): the driver's [mongo.ErrNoDocuments], returned by
    [FindOne(..).Decode] when no document matches the filter, and every other
    failure with its message. *)
Inductive error : Type :=
| ErrNoDocuments
| OtherError (msg : string).

(** [err.Error()], which is what [%v] prints. *)
Definition Error (e : error) : string :=
  match e with
  | ErrNoDocuments => "mongo: no documents in result"
  | OtherError msg => msg
  end.

(** ** Data model *)

Record URLMapping : Type := mkURLMapping {
  Code : string;
  URL : string
}.

Record PageVariables : Type := mkPageVariables {
  ShortURLs : gmap string string
}.

(** ** External collaborators *)

(** The pseudo-random source behind [rand.Intn].  [Intn r n] is the number
    drawn and the source's next state.  The library promises a number in
    [[0, n)] for [0 < n]; that promise is part of the interface. *)
Class RandSource (R : Type) : Type := {
  Intn : R → Z → Z * R;
  Intn_range : ∀ r n, 0 < n → 0 ≤ (Intn r n).1 < n
}.

(** The driver's collection handle.  [InsertOne d doc] is the error, if any,
    and the collection afterwards; [FindOne d code] is
    [FindOne(ctx, bson.M{"code": code}).Decode(&result)]: the decoded document
    or an error, and the collection afterwards.  Nothing is assumed about
    either: they may fail at any call. *)
Class Collection (D : Type) : Type := {
  InsertOne : D → URLMapping → option error * D;
  FindOne : D → string → (URLMapping + error) * D
}.

(** ** HTTP *)

Definition StatusSeeOther : Z := 303.
Definition StatusBadRequest : Z := 400.
Definition StatusNotFound : Z := 404.
Definition StatusInternalServerError : Z := 500.
Definition StatusOK : Z := 200.

(** What a handler does with its response writer. *)
Inductive Response : Type :=
| Redirect (url : string) (code : Z)   (* http.Redirect(w, r, url, code) *)
| HttpError (msg : string) (code : Z)  (* http.Error(w, msg, code) *)
| NotFound                             (* http.NotFound(w, r) *)
| Page (pv : PageVariables)            (* tpl.Execute(w, pv) without error *)
| Panic.                               (* a run-time panic left the handler *)

(** The status code the client sees; a panicking handler sends none. *)
Definition status (resp : Response) : option Z :=
  match resp with
  | Redirect _ code => Some code
  | HttpError _ code => Some code
  | NotFound => Some StatusNotFound
  | Page _ => Some StatusOK
  | Panic => None
  end.

(** ** The code generator *)

Definition charset : string :=
  "abcdefghijklmnopqrstuvwxyzABCDEFGHIJKLMNOPQRSTUVWXYZ0123456789".

(** The 62-symbol alphabet as the specification names it: a-z, A-Z, 0-9. *)
Definition alphanumeric (c : ascii) : bool :=
  let n := nat_of_ascii c in
  ((97 <=? n) && (n <=? 122) || (65 <=? n) && (n <=? 90)
   || (48 <=? n) && (n <=? 57))%nat.

Section Generator.
Context {R : Type} {rand : RandSource R}.

(** The loop [for i := range b { b[i] = charset[rand.Intn(len(charset))] }],
    over the indices still to visit.  [None] is the panic of an index out
    of range. *)
Fixpoint fill (idx : list nat) (b : list ascii) (r : R)
  : option (list ascii) * R :=
  match idx with
  | [] => (Some b, r)
  | i :: rest =>
      let '(n, r') := Intn r (len charset) in
      match index charset n with
      | None => (None, r')
      | Some ch => fill rest (<[i:=ch]> b) r'
      end
  end.

Definition generateShortCode (r : R) : option string * R :=
  let codeLength := 6%nat in
  let b := make codeLength in
  let '(ob, r') := fill (seq 0 (length b)) b r in
  (string_of_list_ascii <$> ob, r').
End Generator.

(** ** The server state *)

(** The package-level variables the handlers share: the random source that
    [main] seeded, the map [shortURLs], the [collection] handle, and what
    [log.Printf] has written so far (the text after the time stamp). *)
Record Server (R D : Type) : Type := mkServer {
  rng : R;
  shortURLs : gmap string string;
  collection : D;
  logged : list string
}.
Arguments mkServer {R D} _ _ _ _.
Arguments rng {R D} _.
Arguments shortURLs {R D} _.
Arguments collection {R D} _.
Arguments logged {R D} _.

(** The requests the mux hands to the three handlers.  [Home] carries the
    outcome of writing the page, which the connection decides; [Shorten]
    carries the form value [url]; [Lookup] carries [r.URL.Path]. *)
Inductive Request : Type :=
| Home (execErr : option error)
| Shorten (url : string)
| Lookup (path : string).

Section Handlers.
Context {R D : Type} {rand : RandSource R} {coll : Collection D}.

Local Abbreviation Server := (Server R D).

Definition with_rng (r : R) (s : Server) : Server :=
  mkServer r (shortURLs s) (collection s) (logged s).
Definition with_shortURLs (m : gmap string string) (s : Server) : Server :=
  mkServer (rng s) m (collection s) (logged s).
Definition with_collection (d : D) (s : Server) : Server :=
  mkServer (rng s) (shortURLs s) d (logged s).

(** [log.Printf(prefix + "%v", err)] *)
Definition logPrintf (prefix : string) (err : error) (s : Server) : Server :=
  mkServer (rng s) (shortURLs s) (collection s)
           (logged s ++ [prefix +:+ Error err]).

Definition saveToMongoDB (code url : string) (s : Server)
  : option error * Server :=
  let '(err, d) := InsertOne (collection s) (mkURLMapping code url) in
  let s := with_collection d s in
  match err with
  | Some e => (err, logPrintf "Error saving to MongoDB: " e s)
  | None => (err, s)
  end.

Definition findInMongoDB (code : string) (s : Server)
  : (string * option error) * Server :=
  let '(found, d) := FindOne (collection s) code in
  let s := with_collection d s in
  match found with
  | inr e => (("", Some e), logPrintf "Error finding URL in MongoDB: " e s)
  | inl result => ((URL result, None), s)
  end.

Definition homeHandler (execErr : option error) (s : Server)
  : Response * Server :=
  let pageVariables := mkPageVariables (shortURLs s) in
  match execErr with
  | Some e => (HttpError (Error e) StatusInternalServerError, s)
  | None => (Page pageVariables, s)
  end.

Definition shortenHandler (url : string) (s : Server) : Response * Server :=
  match url with
  | EmptyString => (HttpError "URL cannot be empty" StatusBadRequest, s)
  | _ =>
      let '(generated, r) := generateShortCode (rng s) in
      let s := with_rng r s in
      match generated with
      | None => (Panic, s)
      | Some shortCode =>
          let s := with_shortURLs (<[shortCode:=url]> (shortURLs s)) s in
          match saveToMongoDB shortCode url s with
          | (Some err, s) =>
              (HttpError "Failed to save to database"
                         StatusInternalServerError,
               logPrintf "Failed to save to database: " err s)
          | (None, s) => (Redirect "/" StatusSeeOther, s)
          end
      end
  end.

(** [r.URL.Path[1:]] panics on an empty path; the mux only routes paths
    that start with a slash here. *)
Definition redirectHandler (path : string) (s : Server) : Response * Server :=
  match path with
  | EmptyString => (Panic, s)
  | String _ shortCode =>
      match shortURLs s !! shortCode with
      | Some originalURL => (Redirect originalURL StatusSeeOther, s)
      | None =>
          let '((url, err), s) := findInMongoDB shortCode s in
          match err, url with
          | None, String _ _ => (Redirect url StatusSeeOther, s)
          | _, _ => (NotFound, s)
          end
      end
  end.

(** The two operations of the mapping store, as requests. *)
Definition create (url : string) (s : Server) : Response * Server :=
  shortenHandler url s.

Definition resolve (code : string) (s : Server) : Response * Server :=
  redirectHandler ("/" +:+ code) s.

Definition handle (req : Request) (s : Server) : Response * Server :=
  match req with
  | Home execErr => homeHandler execErr s
  | Shorten url => shortenHandler url s
  | Lookup path => redirectHandler path s
  end.

(** The server after a sequence of requests, served one at a time. *)
Fixpoint run (reqs : list Request) (s : Server) : Server :=
  match reqs with
  | [] => s
  | req :: rest => run rest (handle req s).2
  end.

(** The code a request draws from the generator, if it draws one. *)
Definition drawn (req : Request) (s : Server) : option string :=
  match req with
  | Shorten (String _ _) => (generateShortCode (rng s)).1
  | _ => None
  end.

(** The codes drawn along a sequence of requests. *)
Fixpoint draws (reqs : list Request) (s : Server) : list string :=
  match reqs with
  | [] => []
  | req :: rest =>
      match drawn req s with
      | Some code => code :: draws rest (handle req s).2
      | None => draws rest (handle req s).2
      end
  end.
End Handlers.

(** ** Two concrete collaborators

    Used to run the handlers on explicit inputs. *)

(** A random source that replays a tape of raw draws, reduced into range;
    an exhausted tape yields 0. *)
Definition tape_Intn (r : list Z) (n : Z) : Z * list Z :=
  match r with
  | [] => (0, [])
  | x :: r' => (x `mod` n, r')
  end.

#[export] Instance Tape : RandSource (list Z).
Proof.
  refine {| Intn := tape_Intn |}.
  intros [|x r'] n Hn; simpl; [lia | apply Z.mod_pos_bound, Hn].
Defined.

(** A collection held in memory: the documents in insertion order, a schedule
    of outages (one entry consumed per call, [true] meaning that the call
    fails), and the number of [FindOne] calls received. *)
Record MemColl : Type := mkMemColl {
  docs : list URLMapping;
  outages : list bool;
  finds : nat
}.

Definition mem_InsertOne (d : MemColl) (doc : URLMapping)
  : option error * MemColl :=
  match outages d with
  | true :: rest =>
      (Some (OtherError "server selection timeout"),
       mkMemColl (docs d) rest (finds d))
  | _ => (None, mkMemColl (docs d ++ [doc]) (tail (outages d)) (finds d))
  end.

Definition mem_FindOne (d : MemColl) (code : string)
  : (URLMapping + error) * MemColl :=
  match outages d with
  | true :: rest =>
      (inr (OtherError "server selection timeout"),
       mkMemColl (docs d) rest (S (finds d)))
  | _ =>
      (match List.find (λ doc, String.eqb (Code doc) code) (docs d) with
       | Some doc => inl doc
       | None => inr ErrNoDocuments
       end,
       mkMemColl (docs d) (tail (outages d)) (S (finds d)))
  end.

#[export] Instance Mem : Collection MemColl :=
  {| InsertOne := mem_InsertOne; FindOne := mem_FindOne |}.

(** A collection that is never reachable. *)
#[export] Instance Unreachable : Collection unit :=
  {| InsertOne := λ d _, (Some (OtherError "connection refused"), d);
     FindOne := λ d _, (inr (OtherError "connection refused"), d) |}.

(** ** Sample inputs *)

Definition go_dev : string := "https://go.dev".
Definition rocq : string := "https://rocq-prover.org".

(** Six draws that spell "hello0", and six that spell "world1". *)
Definition hello0 : list Z := [7; 4; 11; 11; 14; 52].
Definition world1 : list Z := [22; 14; 17; 11; 3; 53].

(** A server just started: nothing in the fast tier, nothing logged. *)
Definition started (tape : list Z) (d : MemColl) : Server (list Z) MemColl :=
  mkServer tape ∅ d [].

(** Collections that are reachable, and collections whose next call fails. *)
Definition reachable (ds : list URLMapping) : MemColl := mkMemColl ds [] 0.
Definition failing_once (ds : list URLMapping) : MemColl :=
  mkMemColl ds [true] 0.

(** Servers at various moments: before and after a first create; with a
    cached code and an unreachable collection; after a restart, the durable
    tier holding a URL, or an empty URL, or another code; cut off from the
    collection; and two whose next create draws "hello0" resp. "world1". *)
Definition fresh : Server (list Z) MemColl := started hello0 (reachable []).
Definition fresh_created : Server (list Z) MemColl :=
  mkServer [] {["hello0" := go_dev]}
           (reachable [mkURLMapping "hello0" go_dev]) [].
Definition cached : Server (list Z) MemColl :=
  mkServer world1 {["hello0" := go_dev]} (mkMemColl [] [true; true; true] 0) [].
Definition restarted : Server (list Z) MemColl :=
  started [] (reachable [mkURLMapping "hello0" go_dev]).
Definition restarted_blank : Server (list Z) MemColl :=
  started [] (reachable [mkURLMapping "hello0" ""]).
Definition elsewhere : Server (list Z) MemColl :=
  started [] (reachable [mkURLMapping "world1" rocq]).
Definition cut_off : Server (list Z) MemColl :=
  started [] (failing_once [mkURLMapping "hello0" go_dev]).
Definition unlucky : Server (list Z) MemColl :=
  started (hello0 ++ hello0)%list (failing_once []).
Definition other_draw : Server (list Z) MemColl :=
  started world1 (reachable []).
Definition selection_timeout : error := OtherError "server selection timeout".

(** A server whose collection is never reachable, and a sequence of
    requests: two creates with a lookup and a page view in between. *)
Definition offline : Server (list Z) unit := mkServer hello0 ∅ () [].
Definition busy_day : list Request :=
  [Shorten go_dev; Lookup "/nope99"; Home None; Shorten rocq].

(** The alphabet as a list of symbols. *)
Definition alphabet : list ascii := list_ascii_of_string charset.

(** ** Observations on the generator and on runs *)

Section Draws.
Context {R : Type} {rand : RandSource R}.

(** The numbers that the next [n] calls [rand.Intn(len(charset))] return,
    and the source after them. *)
Fixpoint draw (n : nat) (r : R) : list Z * R :=
  match n with
  | O => ([], r)
  | S n' =>
      let '(x, r') := Intn r (len charset) in
      let '(xs, r'') := draw n' r' in
      (x :: xs, r'')
  end.
End Draws.

(** [charset[x]] for each [x] of a list of draws. *)
Definition symbols (xs : list Z) : option (list ascii) :=
  mapM (index charset) xs.

(** A well-formed code: six symbols, each of a-z, A-Z, 0-9. *)
Definition valid_code (c : string) : bool :=
  (String.length c =? 6)%nat && forallb alphanumeric (list_ascii_of_string c).

(** A well-formed entry of the fast tier. *)
Definition entry_ok (c u : string) : Prop := valid_code c = true ∧ u ≠ "".

(** [m[cu.1] = cu.2] *)
Definition overwrite (m : gmap string string) (cu : string * string)
  : gmap string string :=
  <[cu.1:=cu.2]> m.

Definition is_home (req : Request) : bool :=
  match req with
  | Home _ => true
  | _ => false
  end.

(** The requests that reach the generator: [Shorten] with a non-empty URL. *)
Definition is_create (req : Request) : bool :=
  match req with
  | Shorten (String _ _) => true
  | _ => false
  end.

Section Runs.
Context {R D : Type} {rand : RandSource R} {coll : Collection D}.

(** The state in which [main] starts serving: the seeded source, the empty
    map that [shortURLs] is initialised with, the collection handle that
    [main] stores, and nothing logged. *)
Definition boot (r : R) (d : D) : Server R D := mkServer r ∅ d [].

(** The (code, URL) pairs that the creates of a run write, in order. *)
Fixpoint creations (reqs : list Request) (s : Server R D)
  : list (string * string) :=
  match reqs with
  | [] => []
  | req :: rest =>
      match req, drawn req s with
      | Shorten url, Some code => (code, url) :: creations rest (handle req s).2
      | _, _ => creations rest (handle req s).2
      end
  end.

(** The responses of a run, in order. *)
Fixpoint responses (reqs : list Request) (s : Server R D) : list Response :=
  match reqs with
  | [] => []
  | req :: rest => (handle req s).1 :: responses rest (handle req s).2
  end.
End Runs.

(** * Properties *)

(** ** Strings from byte slices *)

Lemma string_of_list_ascii_length (b : list ascii) :
  String.length (string_of_list_ascii b) = length b.
Proof. induction b as [|ch b IH]; simpl; [reflexivity | by rewrite IH]. Qed.

(** ** The alphabet *)

Lemma alphabet_alphanumeric (ch : ascii) :
  bool_decide (ch ∈ alphabet) = alphanumeric ch.
Proof.
  destruct ch as [[] [] [] [] [] [] [] []]; vm_compute; reflexivity.
Qed.

Lemma alphabet_size : length alphabet = 62%nat ∧ NoDup alphabet.
Proof.
  split; [reflexivity|].
  refine (bool_decide_unpack (NoDup alphabet) _). vm_compute. exact I.
Qed.

Lemma index_charset (n : Z) :
  0 ≤ n < len charset → ∃ ch, index charset n = Some ch ∧ ch ∈ alphabet.
Proof.
  intros Hn. unfold index.
  destruct (Z.ltb_spec n 0) as [?|_]; [lia|].
  assert (Hk : (Z.to_nat n < 62)%nat) by (change (len charset) with 62 in Hn; lia).
  generalize dependent (Z.to_nat n). intros k Hk.
  do 62 (destruct k as [|k];
         [eexists; split; [reflexivity | refine (bool_decide_unpack (_ ∈ alphabet) _); vm_compute; exact I]|]).
  lia.
Qed.

Section GeneratorFacts.
Context {R : Type} {rand : RandSource R}.

(** The loop never panics, keeps the slice's length, writes a symbol of
    the alphabet at every index it visits and leaves the others alone. *)
Lemma fill_spec (idx : list nat) :
  ∀ (b : list ascii) (r : R),
    (∀ i, i ∈ idx → (i < length b)%nat) →
    ∃ b', (fill idx b r).1 = Some b'
          ∧ length b' = length b
          ∧ (∀ j, j ∈ idx → ∃ ch, b' !! j = Some ch ∧ ch ∈ alphabet)
          ∧ (∀ j, j ∉ idx → b' !! j = b !! j).
Proof.
  induction idx as [|i rest IH]; intros b r Hin; simpl.
  - exists b. repeat split; auto. intros j Hj. inversion Hj.
  - pose proof (Intn_range r (len charset) eq_refl) as Hrange.
    destruct (Intn r (len charset)) as [n r'] eqn:Hdraw. simpl in Hrange.
    destruct (index_charset n Hrange) as (ch & -> & Hch).
    destruct (IH (<[i:=ch]> b) r') as (b' & Hfill & Hlen & Hvisited & Hrest).
    { intros j Hj. rewrite length_insert. apply Hin. by right. }
    exists b'. rewrite length_insert in Hlen.
    split; [exact Hfill|]. split; [exact Hlen|]. split.
    + intros j Hj. destruct (decide (j ∈ rest)) as [Hjr|Hjr]; [by apply Hvisited|].
      apply elem_of_cons in Hj as [->|Hj]; [|done].
      exists ch. split; [|exact Hch].
      rewrite (Hrest _ Hjr). apply list_lookup_insert_eq, Hin. by left.
    + intros j Hj. apply not_elem_of_cons in Hj as [Hji Hjr].
      rewrite (Hrest _ Hjr). by apply list_lookup_insert_ne.
Qed.
End GeneratorFacts.

(** The generator always returns: six bytes, all from the alphabet. *)
Lemma generateShortCode_returns {R : Type} `{!RandSource R} (r : R) :
  ∃ code : string,
    (generateShortCode r).1 = Some code
    ∧ String.length code = 6%nat
    ∧ Forall (λ ch, ch ∈ alphabet) (list_ascii_of_string code).
Proof.
  unfold generateShortCode.
  destruct (fill_spec (seq 0 (length (make 6))) (make 6) r)
    as (b & Hfill & Hlen & Hvisited & _).
  { intros i Hi. apply elem_of_seq in Hi. lia. }
  destruct (fill _ _ r) as [ob r'] eqn:Hrun. simpl in Hfill. subst ob.
  exists (string_of_list_ascii b). simpl.
  split; [reflexivity|]. split.
  { rewrite string_of_list_ascii_length. exact Hlen. }
  rewrite list_ascii_of_string_of_list_ascii.
  apply Forall_lookup. intros j x Hx.
  assert (Hj : (j < length b)%nat) by (eapply lookup_lt_Some; eauto).
  destruct (Hvisited j) as (ch & Hb & Hch).
  { apply elem_of_seq. rewrite Hlen in Hj. lia. }
  assert (x = ch) by congruence. by subst x.
Qed.

(** C6.  Whatever the state of the random source, the generator returns a
    code (it does not panic), the code has exactly 6 characters, and each of
    them is one of the 62 distinct symbols of [charset], that is, one of
    a-z, A-Z, 0-9. *)
Theorem generateShortCode_shape {R : Type} `{!RandSource R} (r : R) :
  ∃ code : string,
    (generateShortCode r).1 = Some code
    ∧ String.length code = 6%nat
    ∧ Forall (λ ch, ch ∈ alphabet ∧ alphanumeric ch = true)
             (list_ascii_of_string code)
    ∧ length alphabet = 62%nat
    ∧ NoDup alphabet.
Proof.
  destruct (generateShortCode_returns r) as (code & Hcode & Hlen & Hsyms).
  exists code. split; [exact Hcode|]. split; [exact Hlen|].
  split; [|exact alphabet_size].
  eapply Forall_impl; [exact Hsyms|]. intros ch Hch. split; [exact Hch|].
  rewrite <- alphabet_alphanumeric. by apply bool_decide_eq_true.
Qed.

(** ** The mapping store *)

Section StoreFacts.
Context {R D : Type} {rand : RandSource R} {coll : Collection D}.
Implicit Types (s : Server R D) (c url u : string).

(** [shortenHandler] on a non-empty URL, spelled out by what the generator
    draws and by what the insert answers. *)
Lemma shortenHandler_nonempty s url c r err d :
  url ≠ "" →
  generateShortCode (rng s) = (Some c, r) →
  InsertOne (collection s) (mkURLMapping c url) = (err, d) →
  shortenHandler url s =
    match err with
    | None =>
        (Redirect "/" StatusSeeOther,
         mkServer r (<[c:=url]> (shortURLs s)) d (logged s))
    | Some e =>
        (HttpError "Failed to save to database" StatusInternalServerError,
         mkServer r (<[c:=url]> (shortURLs s)) d
                  ((logged s ++ ["Error saving to MongoDB: " +:+ Error e])
                   ++ ["Failed to save to database: " +:+ Error e]))
    end.
Proof.
  intros Hurl Hgen Hins. destruct url as [|a url']; [congruence|].
  unfold shortenHandler. rewrite Hgen.
  unfold saveToMongoDB. simpl. rewrite Hins.
  destruct err; reflexivity.
Qed.

(** A code found in the fast tier is answered from it, and the server is
    left as it was. *)
Lemma resolve_hit s c u :
  shortURLs s !! c = Some u → resolve c s = (Redirect u StatusSeeOther, s).
Proof. intros Hhit. unfold resolve, redirectHandler. change ("/" +:+ c) with (String "/" c). cbv iota. by rewrite Hhit. Qed.

(** A code missing from the fast tier is answered by the one [FindOne]. *)
Lemma resolve_miss s c found d :
  shortURLs s !! c = None →
  FindOne (collection s) c = (found, d) →
  resolve c s =
    match found with
    | inl doc =>
        (match URL doc with
         | EmptyString => NotFound
         | String _ _ => Redirect (URL doc) StatusSeeOther
         end, with_collection d s)
    | inr e =>
        (NotFound,
         logPrintf "Error finding URL in MongoDB: " e (with_collection d s))
    end.
Proof.
  intros Hmiss Hfind. unfold resolve, redirectHandler. change ("/" +:+ c) with (String "/" c). cbv iota. rewrite Hmiss.
  unfold findInMongoDB. rewrite Hfind.
  destruct found as [doc|e]; [|reflexivity].
  destruct (URL doc); reflexivity.
Qed.

(** No path makes [redirectHandler] write to [shortURLs]. *)
Lemma redirectHandler_shortURLs (path : string) s :
  shortURLs (redirectHandler path s).2 = shortURLs s.
Proof.
  destruct path as [|a c]; simpl; [reflexivity|].
  destruct (shortURLs s !! c) as [u|]; [reflexivity|].
  unfold findInMongoDB.
  destruct (FindOne (collection s) c) as [[doc|e] d]; simpl; [|reflexivity].
  destruct (URL doc); reflexivity.
Qed.

(** An entry of the fast tier survives every request that does not draw
    its code again. *)
Lemma handle_keeps_entry (req : Request) s c u :
  shortURLs s !! c = Some u →
  drawn req s ≠ Some c →
  shortURLs (handle req s).2 !! c = Some u.
Proof.
  intros Hentry Hdrawn. destruct req as [execErr|url|path]; simpl.
  - by destruct execErr.
  - destruct url as [|a url']; [exact Hentry|].
    simpl in Hdrawn. unfold shortenHandler.
    destruct (generateShortCode (rng s)) as [[c'|] r]; simpl in *; [|exact Hentry].
    unfold saveToMongoDB. simpl.
    destruct (InsertOne (collection s) _) as [[e|] d]; simpl;
      (rewrite lookup_insert_ne; [exact Hentry | congruence]).
  - by rewrite redirectHandler_shortURLs.
Qed.

Lemma run_keeps_entry (reqs : list Request) c u :
  ∀ s, shortURLs s !! c = Some u →
       c ∉ draws reqs s →
       shortURLs (run reqs s) !! c = Some u.
Proof.
  induction reqs as [|req rest IH]; intros s Hentry Hfresh; simpl; [exact Hentry|].
  simpl in Hfresh. apply IH.
  - apply handle_keeps_entry; [exact Hentry|].
    intros Hsame. rewrite Hsame in Hfresh. apply Hfresh. by left.
  - destruct (drawn req s) as [c'|]; [|exact Hfresh].
    intros Hin. apply Hfresh. by right.
Qed.

(** C1.  Round trip: when create(U) for a non-empty U succeeds, having drawn
    the code c, the resolve of c that follows answers with U. *)
Theorem create_then_resolve s url c s' :
  url ≠ "" →
  create url s = (Redirect "/" StatusSeeOther, s') →
  (generateShortCode (rng s)).1 = Some c →
  resolve c s' = (Redirect url StatusSeeOther, s').
Proof.
  intros Hurl Hcreate Hgen. unfold create in Hcreate.
  destruct (generateShortCode (rng s)) as [oc r] eqn:Hdraw.
  simpl in Hgen. subst oc.
  destruct (InsertOne (collection s) (mkURLMapping c url)) as [err d] eqn:Hins.
  rewrite (shortenHandler_nonempty s url c r err d Hurl Hdraw Hins) in Hcreate.
  destruct err as [e|]; [discriminate|].
  injection Hcreate as <-.
  apply resolve_hit. simpl. apply lookup_insert_eq.
Qed.

(** C2.  Empty rejection: create with the empty URL answers 400 with a
    validation message, draws no code, and returns the very state it was
    given: random source, fast tier, durable tier and log. *)
Theorem create_empty_rejected s :
  create "" s = (HttpError "URL cannot be empty" StatusBadRequest, s)
  ∧ status (create "" s).1 = Some 400
  ∧ drawn (Shorten "") s = None.
Proof. repeat split. Qed.

(** C3.  Fast-tier precedence: a code held by the fast tier is answered
    with the fast tier's URL and the whole state, the collection included,
    is returned untouched; the answer is the same on a server whose
    collection fails every call. *)
Theorem fast_tier_precedence s c u :
  shortURLs s !! c = Some u →
  resolve c s = (Redirect u StatusSeeOther, s)
  ∧ ∀ s0 : Server R unit,
      shortURLs s0 = shortURLs s →
      resolve (coll := Unreachable) c s0
      = (Redirect u StatusSeeOther, s0).
Proof.
  intros Hhit. split; [by apply resolve_hit|].
  intros s0 Hsame. unfold resolve, redirectHandler. change ("/" +:+ c) with (String "/" c). cbv iota. by rewrite Hsame, Hhit.
Qed.
(** C4, as amended.  Durable fallback: for a code missing from the fast
    tier whose durable lookup finds a document with a non-empty URL, resolve
    answers with that URL; the server changes only in its collection. *)
Theorem durable_fallback s c doc d :
  shortURLs s !! c = None →
  FindOne (collection s) c = (inl doc, d) →
  URL doc ≠ "" →
  resolve c s = (Redirect (URL doc) StatusSeeOther, with_collection d s).
Proof.
  intros Hmiss Hfind Hurl. rewrite (resolve_miss s c _ d Hmiss Hfind).
  destruct (URL doc); [congruence | reflexivity].
Qed.

(** C5.  Miss behaviour: a code missing from the fast tier is answered with
    NotFound (404) when the durable tier has no document for it, and equally
    when the durable lookup fails with any other error; the two answers are
    the same response. *)
Theorem resolve_not_found s1 s2 c (e : error) d1 d2 :
  shortURLs s1 !! c = None →
  FindOne (collection s1) c = (inr ErrNoDocuments, d1) →
  shortURLs s2 !! c = None →
  FindOne (collection s2) c = (inr e, d2) →
  (resolve c s1).1 = NotFound
  ∧ (resolve c s2).1 = NotFound
  ∧ status (resolve c s1).1 = Some 404
  ∧ (resolve c s1).1 = (resolve c s2).1.
Proof.
  intros Hmiss1 Hfind1 Hmiss2 Hfind2.
  rewrite (resolve_miss s1 c _ d1 Hmiss1 Hfind1).
  rewrite (resolve_miss s2 c _ d2 Hmiss2 Hfind2).
  repeat split.
Qed.

(** C7, as amended.  When the durable insert of create(U) fails, the caller
    gets 500, the fast-tier entry written before the insert stays, and
    resolve of the drawn code answers with U right away and after any
    further requests, as long as none of them draws the same code again. *)
Theorem failed_insert_keeps_fast_entry s url c (e : error) :
  url ≠ "" →
  (generateShortCode (rng s)).1 = Some c →
  (InsertOne (collection s) (mkURLMapping c url)).1 = Some e →
  (create url s).1
  = HttpError "Failed to save to database" StatusInternalServerError
  ∧ status (create url s).1 = Some 500
  ∧ shortURLs (create url s).2 !! c = Some url
  ∧ ∀ reqs : list Request,
      c ∉ draws reqs (create url s).2 →
      (resolve c (run reqs (create url s).2)).1
      = Redirect url StatusSeeOther.
Proof.
  intros Hurl Hgen Hins. unfold create.
  destruct (generateShortCode (rng s)) as [oc r] eqn:Hdraw.
  simpl in Hgen. subst oc.
  destruct (InsertOne (collection s) (mkURLMapping c url)) as [err d] eqn:Hcall.
  simpl in Hins. subst err.
  rewrite (shortenHandler_nonempty s url c r (Some e) d Hurl Hdraw Hcall).
  simpl. split; [reflexivity|]. split; [reflexivity|].
  split; [apply lookup_insert_eq|].
  intros reqs Hfresh.
  erewrite resolve_hit; [reflexivity|].
  apply run_keeps_entry; [apply lookup_insert_eq | exact Hfresh].
Qed.

(** C8, as amended.  A successful create of a non-empty URL answers with a
    redirect to the listing page (303 to "/"), whatever code was drawn; the
    code is not in the response.  It is stored with the URL in the fast
    tier, and the listing page rendered next shows it. *)
Theorem create_success_redirects_home s url c d :
  url ≠ "" →
  (generateShortCode (rng s)).1 = Some c →
  InsertOne (collection s) (mkURLMapping c url) = (None, d) →
  (create url s).1 = Redirect "/" StatusSeeOther
  ∧ shortURLs (create url s).2 !! c = Some url
  ∧ ∃ pv, (homeHandler None (create url s).2).1 = Page pv
          ∧ ShortURLs pv !! c = Some url.
Proof.
  intros Hurl Hgen Hins. unfold create.
  destruct (generateShortCode (rng s)) as [oc r] eqn:Hdraw.
  simpl in Hgen. subst oc.
  rewrite (shortenHandler_nonempty s url c r None d Hurl Hdraw Hins).
  simpl. split; [reflexivity|]. split; [apply lookup_insert_eq|].
  eexists. split; [reflexivity|]. apply lookup_insert_eq.
Qed.

(** The collection after a resolve that missed the fast tier is the one
    [FindOne] left. *)
Lemma resolve_miss_collection s c :
  shortURLs s !! c = None →
  collection (resolve c s).2 = (FindOne (collection s) c).2.
Proof.
  intros Hmiss.
  destruct (FindOne (collection s) c) as [found d] eqn:Hfind.
  rewrite (resolve_miss s c found d Hmiss Hfind).
  destruct found as [doc|e]; reflexivity.
Qed.

(** C9.  resolve never writes to the fast tier, whatever the code and the
    state.  In particular a durable hit is not copied into it: a code that
    misses the fast tier still misses it after any number of resolves, and
    each of those resolves issues its own durable lookup. *)
Theorem resolve_keeps_fast_tier s c :
  shortURLs (resolve c s).2 = shortURLs s
  ∧ (shortURLs s !! c = None →
     ∀ n : nat,
       shortURLs (Nat.iter n (λ s, (resolve c s).2) s) !! c = None
       ∧ collection (Nat.iter n (λ s, (resolve c s).2) s)
         = Nat.iter n (λ d, (FindOne d c).2) (collection s)).
Proof.
  split; [apply redirectHandler_shortURLs|].
  intros Hmiss n. induction n as [|n [IHmiss IHcoll]]; [by split|].
  simpl. split.
  - unfold resolve. by rewrite redirectHandler_shortURLs.
  - rewrite (resolve_miss_collection _ c IHmiss). by rewrite IHcoll.
Qed.

(** C10.  A code missing from the fast tier whose durable lookup succeeds
    with an empty URL is answered with NotFound, not with a redirect to the
    empty URL. *)
Theorem empty_durable_url_not_found s c doc d :
  shortURLs s !! c = None →
  FindOne (collection s) c = (inl doc, d) →
  URL doc = "" →
  (resolve c s).1 = NotFound
  ∧ (resolve c s).1 ≠ Redirect "" StatusSeeOther.
Proof.
  intros Hmiss Hfind Hurl. rewrite (resolve_miss s c _ d Hmiss Hfind).
  rewrite Hurl. simpl. split; [reflexivity | discriminate].
Qed.
End StoreFacts.

(** * The handlers on the sample inputs *)

Example generateShortCode_hello0 :
  generateShortCode (hello0 ++ world1)%list = (Some "hello0", world1).
Proof. reflexivity. Qed.

Example restart_then_three_lookups :
  finds (collection
           (run [Lookup "/hello0"; Lookup "/hello0"; Lookup "/hello0"] restarted))
  = 3%nat.
Proof. reflexivity. Qed.

(** The round trip on a fresh server whose first draw is "hello0". *)
Lemma create_then_resolve_witness :
  go_dev ≠ ""
  ∧ create go_dev fresh = (Redirect "/" StatusSeeOther, fresh_created)
  ∧ (generateShortCode (rng fresh)).1 = Some "hello0"
  ∧ resolve "hello0" fresh_created
    = (Redirect go_dev StatusSeeOther, fresh_created).
Proof.
  assert (Hurl : go_dev ≠ "") by discriminate.
  assert (Hcreate : create go_dev fresh
                    = (Redirect "/" StatusSeeOther, fresh_created))
    by reflexivity.
  assert (Hgen : (generateShortCode (rng fresh)).1 = Some "hello0")
    by reflexivity.
  do 3 (split; [assumption|]).
  exact (create_then_resolve fresh go_dev "hello0" fresh_created
                             Hurl Hcreate Hgen).
Defined.

(** A cached code resolved while the collection fails every call. *)
Lemma fast_tier_precedence_witness :
  shortURLs cached !! "hello0" = Some go_dev
  ∧ resolve "hello0" cached = (Redirect go_dev StatusSeeOther, cached)
  ∧ ∀ s0 : Server (list Z) unit,
      shortURLs s0 = shortURLs cached →
      resolve (coll := Unreachable) "hello0" s0
      = (Redirect go_dev StatusSeeOther, s0).
Proof.
  assert (Hhit : shortURLs cached !! "hello0" = Some go_dev) by reflexivity.
  split; [exact Hhit|].
  exact (fast_tier_precedence cached "hello0" go_dev Hhit).
Defined.

(** After a restart the durable tier holds "hello0" with an empty URL: the
    lookup finds the document, yet resolve answers 404 and not the stored
    URL. *)
Lemma durable_fallback_empty_url :
  shortURLs restarted_blank !! "hello0" = None
  ∧ (FindOne (collection restarted_blank) "hello0").1
    = inl (mkURLMapping "hello0" "")
  ∧ (resolve "hello0" restarted_blank).1 = NotFound
  ∧ (resolve "hello0" restarted_blank).1 ≠ Redirect "" StatusSeeOther.
Proof. do 3 (split; [reflexivity|]). discriminate. Qed.

(** After a restart the durable tier alone holds "hello0". *)
Lemma durable_fallback_witness :
  shortURLs restarted !! "hello0" = None
  ∧ FindOne (collection restarted) "hello0"
    = (inl (mkURLMapping "hello0" go_dev),
       mkMemColl [mkURLMapping "hello0" go_dev] [] 1)
  ∧ URL (mkURLMapping "hello0" go_dev) ≠ ""
  ∧ resolve "hello0" restarted
    = (Redirect go_dev StatusSeeOther,
       with_collection (mkMemColl [mkURLMapping "hello0" go_dev] [] 1)
                       restarted).
Proof.
  assert (Hmiss : shortURLs restarted !! "hello0" = None) by reflexivity.
  assert (Hfind : FindOne (collection restarted) "hello0"
                  = (inl (mkURLMapping "hello0" go_dev),
                     mkMemColl [mkURLMapping "hello0" go_dev] [] 1))
    by reflexivity.
  assert (Hurl : URL (mkURLMapping "hello0" go_dev) ≠ "") by discriminate.
  do 3 (split; [assumption|]).
  exact (durable_fallback restarted "hello0" _ _ Hmiss Hfind Hurl).
Defined.

(** "hello0" is unknown to one server and unreachable for the other. *)
Lemma resolve_not_found_witness :
  shortURLs elsewhere !! "hello0" = None
  ∧ FindOne (collection elsewhere) "hello0"
    = (inr ErrNoDocuments, mkMemColl [mkURLMapping "world1" rocq] [] 1)
  ∧ shortURLs cut_off !! "hello0" = None
  ∧ FindOne (collection cut_off) "hello0"
    = (inr selection_timeout, mkMemColl [mkURLMapping "hello0" go_dev] [] 1)
  ∧ (resolve "hello0" elsewhere).1 = NotFound
  ∧ (resolve "hello0" cut_off).1 = NotFound
  ∧ status (resolve "hello0" elsewhere).1 = Some 404
  ∧ (resolve "hello0" elsewhere).1 = (resolve "hello0" cut_off).1.
Proof.
  assert (Hm1 : shortURLs elsewhere !! "hello0" = None) by reflexivity.
  assert (Hf1 : FindOne (collection elsewhere) "hello0"
                = (inr ErrNoDocuments,
                   mkMemColl [mkURLMapping "world1" rocq] [] 1))
    by reflexivity.
  assert (Hm2 : shortURLs cut_off !! "hello0" = None) by reflexivity.
  assert (Hf2 : FindOne (collection cut_off) "hello0"
                = (inr selection_timeout, mkMemColl [mkURLMapping "hello0" go_dev] [] 1))
    by reflexivity.
  do 4 (split; [assumption|]).
  exact (resolve_not_found elsewhere cut_off "hello0" selection_timeout _ _
                           Hm1 Hf1 Hm2 Hf2).
Defined.

(** The insert of create(go_dev) fails and the caller gets 500; the next
    create draws "hello0" again for another URL, and from then on resolve
    of "hello0" answers with that other URL. *)
Lemma failed_insert_entry_overwritten :
  go_dev ≠ ""
  ∧ (generateShortCode (rng unlucky)).1 = Some "hello0"
  ∧ (InsertOne (collection unlucky) (mkURLMapping "hello0" go_dev)).1
    = Some selection_timeout
  ∧ (create go_dev unlucky).1
    = HttpError "Failed to save to database" StatusInternalServerError
  ∧ (resolve "hello0" (run [Shorten rocq] (create go_dev unlucky).2)).1
    = Redirect rocq StatusSeeOther
  ∧ (resolve "hello0" (run [Shorten rocq] (create go_dev unlucky).2)).1
    ≠ Redirect go_dev StatusSeeOther.
Proof.
  split; [discriminate|]. do 4 (split; [reflexivity|]). discriminate.
Qed.

(** The first insert fails; the entry stays until "hello0" is drawn again. *)
Lemma failed_insert_keeps_fast_entry_witness :
  go_dev ≠ ""
  ∧ (generateShortCode (rng unlucky)).1 = Some "hello0"
  ∧ (InsertOne (collection unlucky) (mkURLMapping "hello0" go_dev)).1
    = Some selection_timeout
  ∧ (create go_dev unlucky).1
    = HttpError "Failed to save to database" StatusInternalServerError
  ∧ status (create go_dev unlucky).1 = Some 500
  ∧ shortURLs (create go_dev unlucky).2 !! "hello0" = Some go_dev
  ∧ ∀ reqs : list Request,
      "hello0" ∉ draws reqs (create go_dev unlucky).2 →
      (resolve "hello0" (run reqs (create go_dev unlucky).2)).1
      = Redirect go_dev StatusSeeOther.
Proof.
  assert (Hurl : go_dev ≠ "") by discriminate.
  assert (Hgen : (generateShortCode (rng unlucky)).1 = Some "hello0")
    by reflexivity.
  assert (Hins : (InsertOne (collection unlucky)
                            (mkURLMapping "hello0" go_dev)).1 = Some selection_timeout)
    by reflexivity.
  do 3 (split; [assumption|]).
  exact (failed_insert_keeps_fast_entry unlucky go_dev "hello0" selection_timeout
                                        Hurl Hgen Hins).
Defined.

(** Two successful creates that draw different codes answer with the same
    response, so no reading of the response gives the code back. *)
Lemma create_response_hides_code :
  (generateShortCode (rng fresh)).1 = Some "hello0"
  ∧ (generateShortCode (rng other_draw)).1 = Some "world1"
  ∧ (create go_dev fresh).1 = Redirect "/" StatusSeeOther
  ∧ (create go_dev other_draw).1 = Redirect "/" StatusSeeOther
  ∧ ¬ ∃ code_of : Response → string,
        code_of (create go_dev fresh).1 = "hello0"
        ∧ code_of (create go_dev other_draw).1 = "world1".
Proof.
  do 4 (split; [reflexivity|]).
  intros (code_of & Hfresh & Hother).
  change (create go_dev other_draw).1 with (create go_dev fresh).1 in Hother.
  rewrite Hfresh in Hother. discriminate.
Qed.

(** A successful create on the fresh server, and the listing after it. *)
Lemma create_success_redirects_home_witness :
  go_dev ≠ ""
  ∧ (generateShortCode (rng fresh)).1 = Some "hello0"
  ∧ InsertOne (collection fresh) (mkURLMapping "hello0" go_dev)
    = (None, reachable [mkURLMapping "hello0" go_dev])
  ∧ (create go_dev fresh).1 = Redirect "/" StatusSeeOther
  ∧ shortURLs (create go_dev fresh).2 !! "hello0" = Some go_dev
  ∧ ∃ pv, (homeHandler None (create go_dev fresh).2).1 = Page pv
          ∧ ShortURLs pv !! "hello0" = Some go_dev.
Proof.
  assert (Hurl : go_dev ≠ "") by discriminate.
  assert (Hgen : (generateShortCode (rng fresh)).1 = Some "hello0")
    by reflexivity.
  assert (Hins : InsertOne (collection fresh) (mkURLMapping "hello0" go_dev)
                 = (None, reachable [mkURLMapping "hello0" go_dev]))
    by reflexivity.
  do 3 (split; [assumption|]).
  exact (create_success_redirects_home fresh go_dev "hello0" _ Hurl Hgen Hins).
Defined.

(** Three resolves after a restart: the fast tier stays cold. *)
Lemma resolve_keeps_fast_tier_witness :
  shortURLs restarted !! "hello0" = None
  ∧ shortURLs (resolve "hello0" restarted).2 = shortURLs restarted
  ∧ shortURLs (Nat.iter 3 (λ s, (resolve "hello0" s).2) restarted) !! "hello0"
    = None
  ∧ collection (Nat.iter 3 (λ s, (resolve "hello0" s).2) restarted)
    = Nat.iter 3 (λ d, (FindOne d "hello0").2) (collection restarted).
Proof.
  assert (Hmiss : shortURLs restarted !! "hello0" = None) by reflexivity.
  split; [exact Hmiss|].
  destruct (resolve_keeps_fast_tier restarted "hello0") as [Hkeep Hagain].
  split; [exact Hkeep|].
  exact (Hagain Hmiss 3%nat).
Defined.

(** The durable tier holds "hello0" with an empty URL. *)
Lemma empty_durable_url_not_found_witness :
  shortURLs restarted_blank !! "hello0" = None
  ∧ FindOne (collection restarted_blank) "hello0"
    = (inl (mkURLMapping "hello0" ""),
       mkMemColl [mkURLMapping "hello0" ""] [] 1)
  ∧ URL (mkURLMapping "hello0" "") = ""
  ∧ (resolve "hello0" restarted_blank).1 = NotFound
  ∧ (resolve "hello0" restarted_blank).1 ≠ Redirect "" StatusSeeOther.
Proof.
  assert (Hmiss : shortURLs restarted_blank !! "hello0" = None) by reflexivity.
  assert (Hfind : FindOne (collection restarted_blank) "hello0"
                  = (inl (mkURLMapping "hello0" ""),
                     mkMemColl [mkURLMapping "hello0" ""] [] 1))
    by reflexivity.
  assert (Hurl : URL (mkURLMapping "hello0" "") = "") by reflexivity.
  do 3 (split; [assumption|]).
  exact (empty_durable_url_not_found restarted_blank "hello0" _ _
                                     Hmiss Hfind Hurl).
Defined.

(** * Further properties of the generator *)

Lemma get_lookup (s : string) (k : nat) :
  String.get k s = list_ascii_of_string s !! k.
Proof.
  revert k. induction s as [|a s IH]; intros [|k]; simpl; auto.
Qed.

(** [charset[x]] is defined exactly for [0 ≤ x < 62], and is then the
    [x]-th symbol of the alphabet. *)
Lemma index_charset_lookup (x : Z) (ch : ascii) :
  index charset x = Some ch ↔ 0 ≤ x ∧ alphabet !! Z.to_nat x = Some ch.
Proof.
  unfold index. rewrite get_lookup. fold alphabet.
  destruct (Z.ltb_spec x 0); split; try lia; try discriminate; intuition.
Qed.

(** Different in-range draws pick different symbols. *)
Lemma index_charset_inj (x y : Z) (ch : ascii) :
  index charset x = Some ch → index charset y = Some ch → x = y.
Proof.
  intros [Hx Hxl]%index_charset_lookup [Hy Hyl]%index_charset_lookup.
  pose proof (NoDup_lookup _ _ _ _ (proj2 alphabet_size) Hxl Hyl). lia.
Qed.

Lemma symbols_inj (xs ys : list Z) (chars : list ascii) :
  symbols xs = Some chars → symbols ys = Some chars → xs = ys.
Proof.
  unfold symbols. intros Hxs%mapM_Some_1 Hys%mapM_Some_1.
  revert ys Hys. induction Hxs as [|x ch xs chars Hx _ IH]; intros ys Hys.
  - by inversion Hys.
  - inversion Hys as [|y ? ys' ? Hy Hys']; subst.
    f_equal; [by eapply index_charset_inj | by apply IH].
Qed.

Section DrawFacts.
Context {R : Type} {rand : RandSource R}.

Lemma draw_length (n : nat) : ∀ r : R, length (draw n r).1 = n.
Proof.
  induction n as [|n IH]; intros r; simpl; [reflexivity|].
  destruct (Intn r (len charset)) as [x r1].
  specialize (IH r1). destruct (draw n r1) as [xs r2]. simpl in *. by rewrite IH.
Qed.

(** The loop over the indices [k, k+n) of [b] replaces exactly that window
    by the symbols of the next [n] draws, in order. *)
Lemma fill_draw (n : nat) :
  ∀ (k : nat) (b : list ascii) (r : R),
    (k + n ≤ length b)%nat →
    ∃ chars,
      symbols (draw n r).1 = Some chars
      ∧ fill (seq k n) b r
        = (Some (take k b ++ chars ++ drop (k + n) b)%list, (draw n r).2).
Proof.
  induction n as [|n IH]; intros k b r Hlen; simpl.
  - exists []. split; [reflexivity|].
    by rewrite Nat.add_0_r, app_nil_l, take_drop.
  - pose proof (Intn_range r (len charset) eq_refl) as Hrange.
    destruct (Intn r (len charset)) as [x r1] eqn:Hdraw. simpl in Hrange.
    destruct (index_charset x Hrange) as (ch & Hch & _).
    destruct (IH (S k) (<[k:=ch]> b) r1) as (chars & Hsym & Hfill).
    { rewrite length_insert. lia. }
    destruct (draw n r1) as [xs r2] eqn:Hrest. simpl in *.
    exists (ch :: chars). split.
    + unfold symbols in *. simpl. rewrite Hch. simpl. by rewrite Hsym.
    + rewrite Hch, Hfill. do 2 f_equal.
      rewrite (take_S_r _ _ ch) by (apply list_lookup_insert_eq; lia).
      rewrite take_insert_ge by lia.
      rewrite drop_insert_lt by lia.
      replace (k + S n)%nat with (S (k + n)) by lia.
      rewrite <- app_assoc. reflexivity.
Qed.

(** The code is made of the alphabet symbols at the six numbers drawn, in
    the order drawn, and the source is left six draws further. *)
Lemma generateShortCode_draw (r : R) :
  ∃ chars,
    symbols (draw 6 r).1 = Some chars
    ∧ generateShortCode r = (Some (string_of_list_ascii chars), (draw 6 r).2).
Proof.
  destruct (fill_draw 6 0 (make 6) r) as (chars & Hsym & Hfill); [simpl; lia|].
  exists chars. split; [exact Hsym|].
  unfold generateShortCode.
  change (seq 0 (length (make 6))) with (seq 0 6). rewrite Hfill. simpl.
  assert (Hlen : length chars = 6%nat).
  { apply mapM_Some_1, Forall2_length in Hsym.
    rewrite <- Hsym. apply draw_length. }
  rewrite app_nil_r. reflexivity.
Qed.
End DrawFacts.

(** Every list of alphabet symbols is spelled by some in-range numbers. *)
Lemma symbols_surj (chars : list ascii) :
  Forall (λ ch, ch ∈ alphabet) chars →
  ∃ xs, symbols xs = Some chars
        ∧ Forall (λ x, 0 ≤ x < len charset) xs
        ∧ length xs = length chars.
Proof.
  induction 1 as [|ch chars Hch _ (xs & Hsym & Hrange & Hlen)].
  - exists []. by repeat split.
  - apply list_elem_of_lookup in Hch as [i Hi].
    pose proof (lookup_lt_Some _ _ _ Hi) as Hlt.
    rewrite (proj1 alphabet_size) in Hlt.
    exists (Z.of_nat i :: xs). split; [|split].
    + unfold symbols in *. simpl.
      assert (Hidx : index charset (Z.of_nat i) = Some ch).
      { apply index_charset_lookup. rewrite Nat2Z.id. split; [lia | exact Hi]. }
      rewrite Hidx. simpl. by rewrite Hsym.
    + constructor; [|exact Hrange]. change (len charset) with 62. lia.
    + simpl. by rewrite Hlen.
Qed.

Lemma valid_code_chars (code : string) :
  valid_code code = true →
  length (list_ascii_of_string code) = 6%nat
  ∧ Forall (λ ch, ch ∈ alphabet) (list_ascii_of_string code).
Proof.
  unfold valid_code. intros [Hlen Hall]%andb_prop. split.
  - apply Nat.eqb_eq in Hlen.
    rewrite <- Hlen. rewrite <- (string_of_list_ascii_of_string code) at 2.
    by rewrite string_of_list_ascii_length.
  - apply Forall_forall. intros ch Hch.
    rewrite forallb_forall in Hall.
    apply (bool_decide_unpack (ch ∈ alphabet)).
    rewrite alphabet_alphanumeric. apply Is_true_true_2, Hall.
    by apply list_elem_of_In.
Qed.

(** X1.  The code returned is made of the symbols [charset[x]] for the six
    numbers [x] that [rand.Intn(62)] returns, in the order drawn; all six are
    in range, and the source is left exactly six draws further. *)
Theorem generateShortCode_spells_draws {R : Type} {rand : RandSource R} (r : R) :
  ∃ chars : list ascii,
    symbols (draw 6 r).1 = Some chars
    ∧ Forall (λ x, 0 ≤ x < 62) (draw 6 r).1
    ∧ (generateShortCode r).1 = Some (string_of_list_ascii chars)
    ∧ (generateShortCode r).2 = (draw 6 r).2.
Proof.
  destruct (generateShortCode_draw r) as (chars & Hsym & Hgen).
  exists chars. rewrite Hgen. split; [exact Hsym|]. split; [|by split].
  apply mapM_Some_1 in Hsym.
  eapply Forall2_Forall_l; [exact Hsym|].
  apply Forall_true. intros x ch Hx.
  apply index_charset_lookup in Hx as [Hx Hl].
  apply lookup_lt_Some in Hl. rewrite (proj1 alphabet_size) in Hl. lia.
Qed.

(** X2.  Two calls of the generator, on any two sources, return the same
    code exactly when their six draws are the same numbers: the only
    collisions are repeated draws. *)
Theorem generateShortCode_collision
    {R1 R2 : Type} {rand1 : RandSource R1} {rand2 : RandSource R2}
    (r1 : R1) (r2 : R2) :
  (generateShortCode r1).1 = (generateShortCode r2).1
  ↔ (draw 6 r1).1 = (draw 6 r2).1.
Proof.
  destruct (generateShortCode_draw r1) as (chars1 & Hsym1 & ->).
  destruct (generateShortCode_draw r2) as (chars2 & Hsym2 & ->).
  cbn [fst]. split.
  - intros [= Heq].
    apply (f_equal list_ascii_of_string) in Heq.
    rewrite !list_ascii_of_string_of_list_ascii in Heq. subst chars2.
    by eapply symbols_inj.
  - intros Heq. rewrite Heq in Hsym1. congruence.
Qed.

(** X3.  Every string of six symbols out of a-z, A-Z, 0-9 is a possible
    code: there are six in-range numbers such that the generator returns
    that string on every source whose next six draws are those numbers. *)
Theorem every_valid_code_can_be_drawn (code : string) :
  valid_code code = true →
  ∃ xs : list Z,
    length xs = 6%nat
    ∧ Forall (λ x, 0 ≤ x < 62) xs
    ∧ ∀ (R : Type) (rand : RandSource R) (r : R),
        (draw 6 r).1 = xs → (generateShortCode r).1 = Some code.
Proof.
  intros [Hlen Hchars]%valid_code_chars.
  destruct (symbols_surj _ Hchars) as (xs & Hsym & Hrange & Hxs).
  exists xs. split; [congruence|]. split; [exact Hrange|].
  intros R rand r Hdraw.
  destruct (generateShortCode_draw r) as (chars & Hsym' & ->).
  rewrite Hdraw in Hsym'. cbn [fst].
  assert (chars = list_ascii_of_string code) by congruence. subst chars.
  by rewrite string_of_list_ascii_of_string.
Qed.

(** * Further properties of the mapping store *)

(** Looking a key up after a series of overwrites: the last write to that
    key wins, and without one the map is as before. *)
Lemma lookup_foldl_overwrite (l : list (string * string)) (c : string) :
  ∀ m : gmap string string,
    foldl overwrite m l !! c
    = match last (filter (λ cu, cu.1 = c) l) with
      | Some cu => Some cu.2
      | None => m !! c
      end.
Proof.
  induction l as [|[c' u'] l IH]; intros m; simpl; [reflexivity|].
  rewrite IH. unfold overwrite. simpl.
  destruct (decide (c' = c)) as [->|Hne].
  - rewrite filter_cons_True by done. rewrite last_cons.
    destruct (last (filter _ l)); [reflexivity|]. simpl. apply lookup_insert_eq.
  - rewrite filter_cons_False by done.
    destruct (last (filter _ l)); [reflexivity|]. by apply lookup_insert_ne.
Qed.

Section RunFacts.
Context {R D : Type} {rand : RandSource R} {coll : Collection D}.
Implicit Types (s : Server R D) (c url u : string) (req : Request).

(** What one request does to the fast tier. *)
Lemma handle_shortURLs req s :
  shortURLs (handle req s).2
  = match req, drawn req s with
    | Shorten url, Some c => <[c:=url]> (shortURLs s)
    | _, _ => shortURLs s
    end.
Proof.
  destruct req as [execErr|url|path]; simpl.
  - by destruct execErr.
  - destruct url as [|a url']; [reflexivity|].
    unfold shortenHandler. simpl.
    destruct (generateShortCode (rng s)) as [[c|] r]; simpl; [|reflexivity].
    unfold saveToMongoDB. simpl.
    by destruct (InsertOne (collection s) _) as [[e|] d].
  - apply redirectHandler_shortURLs.
Qed.

(** What one request does to the random source. *)
Lemma handle_rng req s :
  rng (handle req s).2
  = if is_create req then (generateShortCode (rng s)).2 else rng s.
Proof.
  destruct req as [execErr|url|path]; simpl.
  - by destruct execErr.
  - destruct url as [|a url']; [reflexivity|].
    unfold shortenHandler.
    destruct (generateShortCode (rng s)) as [[c|] r]; simpl; [|reflexivity].
    unfold saveToMongoDB. simpl.
    by destruct (InsertOne (collection s) _) as [[e|] d].
  - destruct path as [|a c]; simpl; [reflexivity|].
    destruct (shortURLs s !! c); [reflexivity|].
    unfold findInMongoDB.
    destruct (FindOne (collection s) c) as [[doc|e] d]; simpl; [|reflexivity].
    by destruct (URL doc).
Qed.

(** The generator only hands out well-formed codes. *)
Lemma generateShortCode_valid (r : R) :
  ∃ c, (generateShortCode r).1 = Some c ∧ valid_code c = true.
Proof.
  destruct (generateShortCode_returns r) as (c & Hc & Hlen & Hsyms).
  exists c. split; [exact Hc|]. unfold valid_code.
  apply andb_true_intro. split; [by apply Nat.eqb_eq|].
  apply forallb_forall. intros ch Hch.
  rewrite Forall_forall in Hsyms.
  rewrite <- alphabet_alphanumeric. apply bool_decide_eq_true, Hsyms.
  by apply list_elem_of_In.
Qed.

Lemma handle_entries_ok req s :
  map_Forall entry_ok (shortURLs s) →
  map_Forall entry_ok (shortURLs (handle req s).2).
Proof.
  intros Hok. rewrite handle_shortURLs.
  destruct req as [execErr|url|path]; try exact Hok.
  destruct url as [|a url']; [exact Hok|]. simpl.
  destruct (generateShortCode_valid (rng s)) as (c & -> & Hvalid).
  apply map_Forall_insert_2; [|exact Hok]. by split.
Qed.

Lemma run_entries_ok (reqs : list Request) :
  ∀ s, map_Forall entry_ok (shortURLs s) →
       map_Forall entry_ok (shortURLs (run reqs s)).
Proof.
  induction reqs as [|req rest IH]; intros s Hok; simpl; [exact Hok|].
  by apply IH, handle_entries_ok.
Qed.

Lemma run_shortURLs (reqs : list Request) s :
  shortURLs (run reqs s) = foldl overwrite (shortURLs s) (creations reqs s).
Proof.
  revert s. induction reqs as [|req rest IH]; intros s; simpl; [reflexivity|].
  rewrite IH, handle_shortURLs.
  destruct req as [execErr|url|path]; try reflexivity.
  unfold drawn. destruct url as [|a url']; [reflexivity|].
  by destruct (generateShortCode (rng s)).1.
Qed.

(** X4.  After any sequence of requests the fast tier is the map it was
    before, overwritten in order by the (code, URL) pairs of the creates
    with a non-empty URL, whatever their inserts answered; so a code maps to
    the URL of the last create that drew it, and any other code is as it
    was. *)
Theorem fast_tier_after_run (reqs : list Request) s :
  shortURLs (run reqs s) = foldl overwrite (shortURLs s) (creations reqs s)
  ∧ ∀ c, shortURLs (run reqs s) !! c
         = match last (filter (λ cu, cu.1 = c) (creations reqs s)) with
           | Some cu => Some cu.2
           | None => shortURLs s !! c
           end.
Proof.
  split; [apply run_shortURLs|].
  intros c. rewrite run_shortURLs. apply lookup_foldl_overwrite.
Qed.

(** X5.  After any sequence of requests, a code drawn during it resolves to
    the URL of the most recent create that drew it, and that resolve leaves
    the server as it is. *)
Theorem last_create_wins (reqs : list Request) s c u :
  last (filter (λ cu, cu.1 = c) (creations reqs s)) = Some (c, u) →
  resolve c (run reqs s) = (Redirect u StatusSeeOther, run reqs s).
Proof.
  intros Hlast. apply resolve_hit.
  rewrite run_shortURLs, lookup_foldl_overwrite. by rewrite Hlast.
Qed.

(** X6.  On a server started with the empty map, whatever requests were
    served, every entry of the fast tier has a well-formed code (six
    alphanumeric symbols) as key and a non-empty URL as value. *)
Theorem booted_fast_tier_well_formed (r : R) (d : D) (reqs : list Request) c u :
  shortURLs (run reqs (boot r d)) !! c = Some u →
  valid_code c = true ∧ u ≠ "".
Proof.
  intros Hentry.
  apply (run_entries_ok reqs (boot r d) (map_Forall_empty _) c u Hentry).
Qed.

(** X7.  On a server started with the empty map, whatever requests were
    served before, [redirectHandler] panics exactly on the empty path, and
    on any other path it answers either 404 or a 303 redirect to a non-empty
    URL; it never redirects to the empty URL. *)
Theorem lookup_outcomes (r : R) (d : D) (reqs : list Request) (path : string) :
  match (redirectHandler path (run reqs (boot r d))).1 with
  | Redirect u code => path ≠ "" ∧ u ≠ "" ∧ code = StatusSeeOther
  | NotFound => path ≠ ""
  | Panic => path = ""
  | _ => False
  end.
Proof.
  pose proof (run_entries_ok reqs (boot r d) (map_Forall_empty _)) as Hok.
  generalize dependent (run reqs (boot r d)). intros s Hok.
  destruct path as [|a c]; simpl; [reflexivity|].
  destruct (shortURLs s !! c) as [u|] eqn:Hc; simpl.
  - split; [discriminate|]. split; [|reflexivity]. apply (Hok c u Hc).
  - unfold findInMongoDB.
    destruct (FindOne (collection s) c) as [[doc|e] d']; simpl; [|discriminate].
    destruct (URL doc) as [|b u]; simpl; [discriminate|].
    repeat split; discriminate.
Qed.

(** X8.  For a non-empty URL [shortenHandler] never panics: it draws a
    well-formed code, hands the document (code, URL) to the driver, and
    answers 303 to "/" when the insert returned no error and 500
    otherwise. *)
Theorem shorten_outcome url s :
  url ≠ "" →
  ∃ c, (generateShortCode (rng s)).1 = Some c
       ∧ valid_code c = true
       ∧ (shortenHandler url s).1
         = match (InsertOne (collection s) (mkURLMapping c url)).1 with
           | None => Redirect "/" StatusSeeOther
           | Some _ =>
               HttpError "Failed to save to database" StatusInternalServerError
           end.
Proof.
  intros Hurl.
  destruct (generateShortCode_valid (rng s)) as (c & Hc & Hvalid).
  exists c. split; [exact Hc|]. split; [exact Hvalid|].
  destruct (generateShortCode (rng s)) as [oc r] eqn:Hgen. simpl in Hc. subst oc.
  destruct (InsertOne (collection s) (mkURLMapping c url)) as [err d] eqn:Hins.
  rewrite (shortenHandler_nonempty s url c r err d Hurl Hgen Hins).
  by destruct err.
Qed.

(** X9.  Page views leave no trace: dropping the [Home] requests from a
    sequence, whether their template execution failed or not, gives the
    same final server state and the same creates. *)
Theorem home_requests_leave_no_trace (reqs : list Request) s :
  run (List.filter (λ req, negb (is_home req)) reqs) s = run reqs s
  ∧ creations (List.filter (λ req, negb (is_home req)) reqs) s
    = creations reqs s.
Proof.
  revert s. induction reqs as [|req rest IH]; intros s; [by split|].
  destruct req as [execErr|url|path]; simpl.
  - assert (Hsame : (homeHandler execErr s).2 = s) by (by destruct execErr).
    rewrite Hsame. apply IH.
  - destruct (IH (shortenHandler url s).2) as [-> ->]. by split.
  - destruct (IH (redirectHandler path s).2) as [-> ->]. by split.
Qed.

(** X10.  After a create with a non-empty URL the listing page shows the
    previous mappings plus the new (code, URL), whether the durable insert
    succeeded or the create was answered with 500. *)
Theorem create_is_listed_whatever_the_insert url s :
  url ≠ "" →
  ∃ c, (generateShortCode (rng s)).1 = Some c
       ∧ (homeHandler None (shortenHandler url s).2).1
         = Page (mkPageVariables (<[c:=url]> (shortURLs s))).
Proof.
  intros Hurl.
  destruct (generateShortCode_valid (rng s)) as (c & Hc & _).
  exists c. split; [exact Hc|].
  destruct (generateShortCode (rng s)) as [oc r] eqn:Hgen. simpl in Hc. subst oc.
  destruct (InsertOne (collection s) (mkURLMapping c url)) as [err d] eqn:Hins.
  rewrite (shortenHandler_nonempty s url c r err d Hurl Hgen Hins).
  by destruct err.
Qed.


(** X12.  Only creates with a non-empty URL advance the random source:
    after any sequence of requests the source is the initial one advanced by
    one code generation per such create, whatever lookups and page views
    came in between and whatever the durable tier answered. *)
Theorem random_source_after_run (reqs : list Request) s :
  rng (run reqs s)
  = Nat.iter (length (List.filter is_create reqs))
             (λ r, (generateShortCode r).2) (rng s).
Proof.
  revert s. induction reqs as [|req rest IH]; intros s; [reflexivity|].
  cbn [run List.filter]. rewrite IH, handle_rng.
  destruct (is_create req); [|reflexivity].
  cbn [length]. by rewrite Nat.iter_succ_r.
Qed.
(** X14.  On a server started with the empty map, a lookup of a string
    that is not a well-formed code always misses the fast tier: it costs one
    durable lookup, and the answer is the durable tier's non-empty URL or
    404. *)
Theorem malformed_code_reaches_durable_tier
    (r : R) (d : D) (reqs : list Request) c :
  valid_code c = false →
  collection (resolve c (run reqs (boot r d))).2
  = (FindOne (collection (run reqs (boot r d))) c).2
  ∧ (resolve c (run reqs (boot r d))).1
    = match (FindOne (collection (run reqs (boot r d))) c).1 with
      | inl doc =>
          match URL doc with
          | EmptyString => NotFound
          | String _ _ => Redirect (URL doc) StatusSeeOther
          end
      | inr _ => NotFound
      end.
Proof.
  intros Hbad.
  pose proof (run_entries_ok reqs (boot r d) (map_Forall_empty _)) as Hok.
  generalize dependent (run reqs (boot r d)). intros s Hok.
  assert (Hmiss : shortURLs s !! c = None).
  { destruct (shortURLs s !! c) as [u|] eqn:Hc; [|reflexivity].
    destruct (Hok c u Hc) as [Hvalid _]. congruence. }
  destruct (FindOne (collection s) c) as [found d'] eqn:Hfind.
  rewrite (resolve_miss s c found d' Hmiss Hfind).
  by destruct found as [doc|e].
Qed.
End RunFacts.

(** X13.  The fast tier never learns from the durable tier: two servers
    with the same random source and the same map, on any two collections,
    serve the same requests to the same map, the same source and the same
    creates. *)
Theorem fast_tier_ignores_durable_tier
    {R D1 D2 : Type} {rand : RandSource R}
    {coll1 : Collection D1} {coll2 : Collection D2}
    (reqs : list Request) :
  ∀ (s1 : Server R D1) (s2 : Server R D2),
    rng s1 = rng s2 →
    shortURLs s1 = shortURLs s2 →
    rng (run reqs s1) = rng (run reqs s2)
    ∧ shortURLs (run reqs s1) = shortURLs (run reqs s2)
    ∧ creations reqs s1 = creations reqs s2.
Proof.
  induction reqs as [|req rest IH]; intros s1 s2 Hrng Hmap; [by repeat split|].
  assert (Hdrawn : drawn req s1 = drawn req s2).
  { destruct req as [execErr|[|a url]|path]; simpl; congruence. }
  destruct (IH (handle req s1).2 (handle req s2).2) as (Hr & Hm & Hc).
  { rewrite !handle_rng. by rewrite Hrng. }
  { rewrite !handle_shortURLs.
    destruct req as [execErr|url|path]; try exact Hmap.
    by rewrite Hdrawn, Hmap. }
  cbn [run creations]. rewrite Hr, Hm.
  destruct req as [execErr|url|path]; try (by repeat split).
  rewrite Hdrawn, Hc. by repeat split.
Qed.

(** * The further properties on the sample inputs *)

(** "hello0" is a well-formed code, so some six draws spell it. *)
Lemma every_valid_code_can_be_drawn_witness :
  valid_code "hello0" = true
  ∧ ∃ xs : list Z,
      length xs = 6%nat
      ∧ Forall (λ x, 0 ≤ x < 62) xs
      ∧ ∀ (R : Type) (rand : RandSource R) (r : R),
          (draw 6 r).1 = xs → (generateShortCode r).1 = Some "hello0".
Proof.
  assert (Hvalid : valid_code "hello0" = true) by reflexivity.
  split; [exact Hvalid|].
  exact (every_valid_code_can_be_drawn "hello0" Hvalid).
Defined.

(** Two creates draw "hello0", the first answered with 500: the second
    one's URL is what "hello0" resolves to. *)
Lemma last_create_wins_witness :
  last (filter (λ cu, cu.1 = "hello0") (creations busy_day unlucky))
  = Some ("hello0", rocq)
  ∧ resolve "hello0" (run busy_day unlucky)
    = (Redirect rocq StatusSeeOther, run busy_day unlucky).
Proof.
  assert (Hlast : last (filter (λ cu, cu.1 = "hello0")
                               (creations busy_day unlucky))
                  = Some ("hello0", rocq)) by reflexivity.
  split; [exact Hlast|].
  exact (last_create_wins busy_day unlucky "hello0" rocq Hlast).
Defined.

(** The one entry after a first create on a booted server. *)
Lemma booted_fast_tier_well_formed_witness :
  shortURLs (run [Shorten go_dev] (boot hello0 (reachable []))) !! "hello0"
  = Some go_dev
  ∧ valid_code "hello0" = true
  ∧ go_dev ≠ "".
Proof.
  assert (Hentry : shortURLs (run [Shorten go_dev]
                                  (boot hello0 (reachable []))) !! "hello0"
                   = Some go_dev) by reflexivity.
  split; [exact Hentry|].
  exact (booted_fast_tier_well_formed hello0 (reachable []) [Shorten go_dev]
                                      "hello0" go_dev Hentry).
Defined.

(** A create whose insert fails. *)
Lemma shorten_outcome_witness :
  go_dev ≠ ""
  ∧ ∃ c, (generateShortCode (rng unlucky)).1 = Some c
         ∧ valid_code c = true
         ∧ (shortenHandler go_dev unlucky).1
           = match (InsertOne (collection unlucky)
                              (mkURLMapping c go_dev)).1 with
             | None => Redirect "/" StatusSeeOther
             | Some _ =>
                 HttpError "Failed to save to database"
                           StatusInternalServerError
             end.
Proof.
  assert (Hurl : go_dev ≠ "") by discriminate.
  split; [exact Hurl|].
  exact (shorten_outcome go_dev unlucky Hurl).
Defined.

(** The listing after a create that was answered with 500. *)
Lemma create_is_listed_whatever_the_insert_witness :
  go_dev ≠ ""
  ∧ ∃ c, (generateShortCode (rng unlucky)).1 = Some c
         ∧ (homeHandler None (shortenHandler go_dev unlucky).2).1
           = Page (mkPageVariables (<[c:=go_dev]> (shortURLs unlucky))).
Proof.
  assert (Hurl : go_dev ≠ "") by discriminate.
  split; [exact Hurl|].
  exact (create_is_listed_whatever_the_insert go_dev unlucky Hurl).
Defined.

(** The same requests on a reachable and on an unreachable collection. *)
Lemma fast_tier_ignores_durable_tier_witness :
  rng fresh = rng offline
  ∧ shortURLs fresh = shortURLs offline
  ∧ rng (run busy_day fresh) = rng (run busy_day offline)
  ∧ shortURLs (run busy_day fresh) = shortURLs (run busy_day offline)
  ∧ creations busy_day fresh = creations busy_day offline.
Proof.
  assert (Hrng : rng fresh = rng offline) by reflexivity.
  assert (Hmap : shortURLs fresh = shortURLs offline) by reflexivity.
  do 2 (split; [assumption|]).
  exact (fast_tier_ignores_durable_tier busy_day fresh offline Hrng Hmap).
Defined.

(** A browser's request for "/favicon.ico" after some traffic. *)
Lemma malformed_code_reaches_durable_tier_witness :
  valid_code "favicon.ico" = false
  ∧ collection (resolve "favicon.ico"
                        (run busy_day (boot hello0 (reachable [])))).2
    = (FindOne (collection (run busy_day (boot hello0 (reachable []))))
               "favicon.ico").2
  ∧ (resolve "favicon.ico" (run busy_day (boot hello0 (reachable [])))).1
    = match (FindOne (collection (run busy_day (boot hello0 (reachable []))))
                     "favicon.ico").1 with
      | inl doc =>
          match URL doc with
          | EmptyString => NotFound
          | String _ _ => Redirect (URL doc) StatusSeeOther
          end
      | inr _ => NotFound
      end.
Proof.
  assert (Hbad : valid_code "favicon.ico" = false) by reflexivity.
  split; [exact Hbad|].
  exact (malformed_code_reaches_durable_tier hello0 (reachable []) busy_day
                                             "favicon.ico" Hbad).
Defined.
